(** * unit-tests-demo: the fetch-then-persist orchestration

    A shallow embedding of the Go program: [main.Execute] with its two
    interfaces [IPGetter] and [FileWriter] (main.go), and the adapter
    [internal.Ipify.GetPublicIP] (internal/ipify.go).

    Go values are rendered as follows.
    - [string]: an immutable sequence of bytes, here [String.string]
      (a sequence of 8-bit characters);
    - [[]byte]: [list Byte.byte];
    - [*string]: [option string], [None] being the nil pointer;
    - [error]: an interface value, nil or a non-nil error, here
      [option string] with the error's message;
    - [fs.FileMode]: an unsigned 32-bit integer, here [Z];
    - [map[string]string]: [option (gmap string string)], [None] being the
      nil map;
    - a runtime panic is an explicit outcome of a run, next to a return. *)

From Stdlib Require Import ZArith Lia.
From Stdlib Require Import Strings.Ascii Strings.String Strings.Byte.
From stdpp Require Import base option list strings gmap.

Local Open Scope Z_scope.
Local Open Scope string_scope.
Local Open Scope list_scope.

(** ** Go values *)

(** The interface type [error]: [None] is [nil]. *)
Definition error : Type := option string.

(** A nullable pointer [*T]. *)
Definition ptr (T : Type) : Type := option T.

(** [fs.FileMode]. *)
Definition FileMode : Type := Z.

(** An integer literal written in octal, most significant digit first, as
    the literal [0644] of main.go. *)
Definition octal (digits : list Z) : Z :=
  foldl (fun acc d => 8 * acc + d) 0 digits.
Arguments octal : simpl never.

(** The permission bits of a mode: read, write and execute for each of the
    three classes of users, in the nine low bits. *)
Inductive Who : Type := Owner | Group | Others.

Definition class_shift (c : Who) : Z :=
  match c with Owner => 6 | Group => 3 | Others => 0 end.

Definition rwx (m : FileMode) (c : Who) : bool * bool * bool :=
  (Z.testbit m (class_shift c + 2),
   Z.testbit m (class_shift c + 1),
   Z.testbit m (class_shift c)).

(** The conversion [[]byte(s)]: the bytes of [s], in order. *)
Definition bytes_of_string (s : string) : list byte :=
  list_byte_of_string s.
Arguments bytes_of_string : simpl never.

(** [map[string]string] and the index expression [m[k]], which yields the
    zero value of the element type when [k] is absent or [m] is nil. *)
Definition GoMap : Type := option (gmap string string).

Definition map_index (m : GoMap) (k : string) : string :=
  match m with
  | Some entries => default "" (entries !! k)
  | None => ""
  end.

(** Whether [k] is a key of [m]. *)
Definition has_key (m : GoMap) (k : string) : Prop :=
  match m with
  | Some entries => is_Some (entries !! k)
  | None => False
  end.

(** ** Outcomes of a run *)

Inductive Panic : Type :=
  | NilPointerDereference.

Inductive Outcome (A : Type) : Type :=
  | Returned (a : A)
  | Panicked (p : Panic).
Arguments Returned {A} a.
Arguments Panicked {A} p.

#[global] Instance Outcome_ret : MRet Outcome := fun _ a => Returned a.
#[global] Instance Outcome_bind : MBind Outcome := fun _ _ k m =>
  match m with
  | Returned a => k a
  | Panicked p => Panicked p
  end.

(** The dereference [*p]. *)
Definition deref {A : Type} (p : ptr A) : Outcome A :=
  match p with
  | Some a => Returned a
  | None => Panicked NilPointerDereference
  end.

(** ** Package internal *)

Module internal.

(** [type Ipify struct {}] *)
Inductive Ipify : Type := mkIpify.

Section GetPublicIP.
(** The library functions the adapter calls are not part of the
    repository; the adapter is read for whatever they return.
    [Body] is the [io.ReadCloser] of a response. *)
Context {Body : Type}.

(** [http.Response], of which only the field [Body] is used. *)
Record Response : Type := mkResponse { resp_Body : Body }.

Variable http_Get : string -> ptr Response * error.
Variable io_ReadAll : Body -> list byte * error.
(** [json.Unmarshal(data, &v)]: the value stored in [v] afterwards, and
    the error. *)
Variable json_Unmarshal : list byte -> GoMap -> GoMap * error.

Definition GetPublicIP (i : Ipify) : Outcome (ptr string * error) :=
  let '(resp, err) := http_Get "https://api.ipify.org?format=json" in
  match err with
  | Some _ => Returned (None, err)
  | None =>
      resp ← deref resp;
      let '(body, err) := io_ReadAll (resp_Body resp) in
      match err with
      | Some _ => Returned (None, err)
      | None =>
          (* Decode the JSON. *)
          let result : GoMap := None in
          let '(result, err) := json_Unmarshal body result in
          match err with
          | Some _ => Returned (None, err)
          | None =>
              let ip := map_index result "ip" in
              Returned (Some ip, None)
          end
      end
  end.
End GetPublicIP.

Arguments Response : clear implicits.
Arguments mkResponse {Body} _.

(** [type FileRepository struct {}] *)
Inductive FileRepository : Type := mkFileRepository.

Section Write.
(** [FS] is the state of the file system, [ioutil.WriteFile] the
    library function acting on it. *)
Context {FS : Type}.
Variable ioutil_WriteFile :
  string -> list byte -> FileMode -> FS -> error * FS.

Definition Write (f : FileRepository)
    (filename : string) (data : list byte) (perm : FileMode)
    : FS -> error * FS :=
  ioutil_WriteFile filename data perm.
End Write.

End internal.

(** ** Package main *)

Module main.

(** A call of a collaborator's method, with its arguments. *)
Inductive Call : Type :=
  | CallGetPublicIP
  | CallWrite (filename : string) (data : list byte) (perm : FileMode).

Definition is_GetPublicIP (c : Call) : bool :=
  match c with CallGetPublicIP => true | _ => false end.

Definition is_Write (c : Call) : bool :=
  match c with CallWrite _ _ _ => true | _ => false end.

(** The number of calls of [tr] that satisfy [p]. *)
Fixpoint calls (p : Call -> bool) (tr : list Call) : nat :=
  match tr with
  | [] => O
  | c :: tr' => ((if p c then 1 else 0) + calls p tr')%nat
  end.

(** What a run leaves behind: its outcome, the state of the
    collaborators, and the calls it made on them, oldest first. *)
Record Run (St A : Type) : Type := mkRun {
  outcome : Outcome A;
  final : St;
  trace : list Call;
}.
Arguments mkRun {St A} _ _ _.
Arguments outcome {St A} _.
Arguments final {St A} _.
Arguments trace {St A} _.

(** Code that runs on the collaborators' state [St]. *)
Definition Exec (St A : Type) : Type := St -> Run St A.

#[global] Instance Exec_ret {St} : MRet (Exec St) := fun _ a s =>
  mkRun (Returned a) s [].

#[global] Instance Exec_bind {St} : MBind (Exec St) := fun _ _ k m s =>
  let r := m s in
  match outcome r with
  | Returned a =>
      let r' := k a (final r) in
      mkRun (outcome r') (final r') (trace r ++ trace r')
  | Panicked p => mkRun (Panicked p) (final r) (trace r)
  end.

(** An expression that may panic, evaluated in the middle of a run. *)
Definition eval {St A} (o : Outcome A) : Exec St A := fun s =>
  mkRun o s [].

(** [type IPGetter interface]: the method [GetPublicIP], without
    arguments, returns a [*string] and an [error]. [T] is the implementer
    and [St] the state its method acts on. The methods of the two
    interfaces are read as calls that return: a collaborator that panics
    or does not come back is outside the model. *)
Class IPGetter (T St : Type) : Type := {
  GetPublicIP : T -> St -> (ptr string * error) * St;
}.

(** [type FileWriter interface { Write(filename string, data []byte,
    perm fs.FileMode) error }]. *)
Class FileWriter (T St : Type) : Type := {
  Write : T -> string -> list byte -> FileMode -> St -> error * St;
}.

Section Execute.
Context {St G F : Type} `{!IPGetter G St} `{!FileWriter F St}.

(** The method call [ipGetter.GetPublicIP()]. *)
Definition call_GetPublicIP (ipGetter : G)
    : Exec St (ptr string * error) := fun s =>
  let '(r, s') := GetPublicIP ipGetter s in
  mkRun (Returned r) s' [CallGetPublicIP].

(** The method call [fileWriter.Write(filename, data, perm)]. *)
Definition call_Write (fileWriter : F)
    (filename : string) (data : list byte) (perm : FileMode)
    : Exec St error := fun s =>
  let '(err, s') := Write fileWriter filename data perm s in
  mkRun (Returned err) s' [CallWrite filename data perm].

Definition Execute (ipGetter : G) (fileWriter : F) (outputFile : string)
    : Exec St error :=
  (* Get request on the API. *)
  '(publicIP, err) ← call_GetPublicIP ipGetter;
  match err with
  | Some _ => mret err
  | None =>
      (* Write its content to a file. *)
      ip ← eval (deref publicIP);
      call_Write fileWriter outputFile (bytes_of_string ip)
                 (octal [6; 4; 4])
  end.
End Execute.

(** The runs of [Execute] read as a relation: one rule for each way the
    body can be left. [Execute_runs] below shows that every run of the
    function is an instance of one of them. *)
Inductive ExecuteRun {St G F : Type} `{!IPGetter G St} `{!FileWriter F St}
    (ipGetter : G) (fileWriter : F) (outputFile : string) (s : St)
    : Run St error -> Prop :=
  | run_fetch_failed publicIP e s1 :
      GetPublicIP ipGetter s = ((publicIP, Some e), s1) ->
      ExecuteRun ipGetter fileWriter outputFile s
        (mkRun (Returned (Some e)) s1 [CallGetPublicIP])
  | run_nil_pointer s1 :
      GetPublicIP ipGetter s = ((None, None), s1) ->
      ExecuteRun ipGetter fileWriter outputFile s
        (mkRun (Panicked NilPointerDereference) s1 [CallGetPublicIP])
  | run_written ip s1 err s2 :
      GetPublicIP ipGetter s = ((Some ip, None), s1) ->
      Write fileWriter outputFile (bytes_of_string ip) (octal [6; 4; 4]) s1
        = (err, s2) ->
      ExecuteRun ipGetter fileWriter outputFile s
        (mkRun (Returned err) s2
           [CallGetPublicIP;
            CallWrite outputFile (bytes_of_string ip) (octal [6; 4; 4])]).

End main.

(** ** Test doubles *)

(** Scripted stand-ins for the two interfaces, in the manner of the doubles
    main_test.go programs: each returns what it was told to return, and the
    controller they share keeps the calls they received, oldest first. *)
Module doubles.
Import main.

Definition Controller : Type := list Call.

Record MockIPGetter : Type := mkMockIPGetter {
  GetPublicIP_return : ptr string * error;
}.

Record MockFileWriter : Type := mkMockFileWriter {
  Write_return : error;
}.

#[global] Instance MockIPGetter_IPGetter
    : IPGetter MockIPGetter Controller := {
  GetPublicIP m ctrl := (GetPublicIP_return m, ctrl ++ [CallGetPublicIP]);
}.

#[global] Instance MockFileWriter_FileWriter
    : FileWriter MockFileWriter Controller := {
  Write m filename data perm ctrl :=
    (Write_return m, ctrl ++ [CallWrite filename data perm]);
}.

(** The values of TestExecute. *)
Definition expectedOutputFile : string := "output.txt".
Definition expectedIP : string := "184.162.7.66".

(** A lookup service scripted to answer with a fixed body: the response
    of [http.Get], the read of its body, and the decoding of that body
    (given as the map it decodes to, or the error). *)
Record Script : Type := mkScript {
  get_return : ptr (internal.Response (list byte)) * error;
  read_error : error;
  decoded : GoMap * error;
}.

Definition http_Get (sc : Script) (url : string)
    : ptr (internal.Response (list byte)) * error :=
  get_return sc.

Definition io_ReadAll (sc : Script) (body : list byte)
    : list byte * error :=
  (body, read_error sc).

Definition json_Unmarshal (sc : Script) (data : list byte) (v : GoMap)
    : GoMap * error :=
  decoded sc.

Definition GetPublicIP_on (sc : Script)
    : Outcome (ptr string * error) :=
  internal.GetPublicIP (http_Get sc) (io_ReadAll sc) (json_Unmarshal sc)
                       internal.mkIpify.

(** The service answers with the empty JSON object. *)
Definition empty_object : Script :=
  mkScript (Some (internal.mkResponse (bytes_of_string "{}")), None)
           None
           (Some ∅, None).

(** The service answers with an object whose field [ip] is
    [expectedIP]. *)
Definition quote : string := String "034"%char EmptyString.

Definition ip_object_body : string :=
  "{" +:+ quote +:+ "ip" +:+ quote +:+ ":"
      +:+ quote +:+ expectedIP +:+ quote +:+ "}".

Definition ip_object : Script :=
  mkScript (Some (internal.mkResponse (bytes_of_string ip_object_body)),
            None)
           None
           (Some {[ "ip" := expectedIP ]}, None).

(** The doubles of the scenarios below. *)
Definition fetchError : string := "Get: dial tcp: no route to host".
Definition persistError : string := "open output.txt: permission denied".

Definition okIPGetter : MockIPGetter :=
  mkMockIPGetter (Some expectedIP, None).
Definition failingIPGetter : MockIPGetter :=
  mkMockIPGetter (None, Some fetchError).
Definition nilIPGetter : MockIPGetter :=
  mkMockIPGetter (None, None).
Definition okFileWriter : MockFileWriter :=
  mkMockFileWriter None.
Definition failingFileWriter : MockFileWriter :=
  mkMockFileWriter (Some persistError).

(** A controller that has received no call yet. *)
Definition NewController : Controller := [].

End doubles.

(** ** The command *)

(** [func main] of main.go, with the two adapters of package internal
    injected into [Execute]. The state the run acts on is the file system
    [FS]; the lookup service is read through the library functions, as in
    [internal.GetPublicIP]. *)
Module program.

(** How the process ends: [os.Exit] with a status (a return of [main]
    being status 0), or a panic that nothing recovers. *)
Inductive RuntimePanic : Type :=
  | IndexOutOfRange (index length : nat)
  | Raised (p : Panic).

Inductive Termination : Type :=
  | Exited (status : Z)
  | Aborted (p : RuntimePanic).

(** What the process leaves behind: how it ended, the errors given to
    [log.Fatal] (the text of the line it prints, without the time stamp),
    and the file system. *)
Record Process (FS : Type) : Type := mkProcess {
  termination : Termination;
  logged : list string;
  disk : FS;
}.
Arguments mkProcess {FS} _ _ _.
Arguments termination {FS} _.
Arguments logged {FS} _.
Arguments disk {FS} _.

Section Adapters.
Context {Body FS : Type}.
Variable http_Get : string -> ptr (internal.Response Body) * error.
Variable io_ReadAll : Body -> list byte * error.
Variable json_Unmarshal : list byte -> GoMap -> GoMap * error.
Variable ioutil_WriteFile :
  string -> list byte -> FileMode -> FS -> error * FS.

(** [*Ipify] implements [IPGetter] by its method [GetPublicIP], which
    leaves the file system alone. A panic inside the method unwinds
    through [Execute]: no later statement of [Execute] runs. The method's
    only panic is a nil dereference, and a run of [Execute] records a
    panic, the calls made and the state, not the place of the panic; so
    the panicking call is given as the one after which the dereference of
    [Execute] panics, which leaves the same run: [GetPublicIP] called,
    nothing written, nil dereference. *)
Definition Ipify_IPGetter : main.IPGetter internal.Ipify FS := {|
  main.GetPublicIP i fs :=
    (match internal.GetPublicIP http_Get io_ReadAll json_Unmarshal i with
     | Returned r => r
     | Panicked NilPointerDereference => (None, None)
     end, fs);
|}.

(** [*FileRepository] implements [FileWriter] by its method [Write]. *)
Definition FileRepository_FileWriter
    : main.FileWriter internal.FileRepository FS := {|
  main.Write := internal.Write ioutil_WriteFile;
|}.

(** [Execute(&internal.Ipify{}, &internal.FileRepository{}, outputFile)]. *)
Definition Execute_adapters (outputFile : string)
    : main.Exec FS error :=
  @main.Execute FS internal.Ipify internal.FileRepository
    Ipify_IPGetter FileRepository_FileWriter
    internal.mkIpify internal.mkFileRepository outputFile.

(** [func main]. The index expression [os.Args[1]] is evaluated before
    [Execute] is called, and panics when there is no such element. *)
Definition main (os_Args : list string) (fs : FS) : Process FS :=
  match os_Args !! 1%nat with
  | None =>
      mkProcess (Aborted (IndexOutOfRange 1 (length os_Args))) [] fs
  | Some outputFile =>
      let r := Execute_adapters outputFile fs in
      match main.outcome r with
      | Returned (Some e) =>
          (* log.Fatal(err) *)
          mkProcess (Exited 1) [e] (main.final r)
      | Returned None => mkProcess (Exited 0) [] (main.final r)
      | Panicked p => mkProcess (Aborted (Raised p)) [] (main.final r)
      end
  end.
End Adapters.

End program.

(** ** The first version of README.md *)

(** [Execute(outputFile string) error] as README.md has it before the two
    interfaces are introduced: the request, the decoding and the write in
    one function. *)
Module monolith.

Section Execute.
Context {Body FS : Type}.
Variable http_Get : string -> ptr (internal.Response Body) * error.
Variable io_ReadAll : Body -> list byte * error.
Variable json_Unmarshal : list byte -> GoMap -> GoMap * error.
Variable ioutil_WriteFile :
  string -> list byte -> FileMode -> FS -> error * FS.

Definition Execute (outputFile : string) (fs : FS) : Outcome error * FS :=
  (* Get request on the API. *)
  let '(resp, err) := http_Get "https://api.ipify.org?format=json" in
  match err with
  | Some _ => (Returned err, fs)
  | None =>
      match deref resp with
      | Panicked p => (Panicked p, fs)
      | Returned resp =>
          let '(body, err) := io_ReadAll (internal.resp_Body resp) in
          match err with
          | Some _ => (Returned err, fs)
          | None =>
              (* Decode the JSON. *)
              let result : GoMap := None in
              let '(result, err) := json_Unmarshal body result in
              match err with
              | Some _ => (Returned err, fs)
              | None =>
                  (* Write its content to a file. *)
                  let '(err, fs') :=
                    ioutil_WriteFile outputFile
                      (bytes_of_string (map_index result "ip"))
                      (octal [6; 4; 4]) fs in
                  (Returned err, fs')
              end
          end
      end
  end.
End Execute.

End monolith.

(** ** Scenarios for the command *)

(** Stand-ins for the file system, and further scripts of the lookup
    service. *)
Module scenarios.
Import doubles.

(** A file system in memory: the content and the mode of each file. *)
Definition MemFS : Type := gmap string (list byte * FileMode).

Definition mem_WriteFile (filename : string) (data : list byte)
    (perm : FileMode) (fs : MemFS) : error * MemFS :=
  (None, <[filename := (data, perm)]> fs).

(** A file system that refuses every write. *)
Definition writeError : string := "open output.txt: read-only file system".

Definition readonly_WriteFile (filename : string) (data : list byte)
    (perm : FileMode) (fs : MemFS) : error * MemFS :=
  (Some writeError, fs).

(** The request fails. *)
Definition unreachable : Script :=
  mkScript (None, Some fetchError) None (None, None).

(** The body cannot be read to its end. *)
Definition readError : string := "unexpected EOF".

Definition broken_body : Script :=
  mkScript (Some (internal.mkResponse (bytes_of_string "{")), None)
           (Some readError)
           (None, None).

(** The body is not JSON. *)
Definition decodeError : string :=
  "invalid character '<' looking for beginning of value".

Definition not_json : Script :=
  mkScript (Some (internal.mkResponse (bytes_of_string "<html>")), None)
           None
           (None, Some decodeError).

(** [http.Get] returns neither a response nor an error. *)
Definition no_response : Script :=
  mkScript (None, None) None (None, None).

(** The command run on a script and a file system in memory. *)
Definition main_on (sc : Script) (os_Args : list string) (fs : MemFS)
    : program.Process MemFS :=
  program.main (http_Get sc) (io_ReadAll sc) (json_Unmarshal sc)
               mem_WriteFile os_Args fs.

(** The command line [ip-writer output.txt], the command line without an
    argument, and a file system without files. *)
Definition with_argument : list string := ["ip-writer"; "output.txt"].
Definition without_argument : list string := ["ip-writer"].
Definition no_files : MemFS := ∅.

End scenarios.

(** * Properties of [main.Execute] *)

Module ExecuteSpec.
Import main.

Section Runs.
Context {St G F : Type} `{!IPGetter G St} `{!FileWriter F St}.
Implicit Types (g : G) (w : F) (f : string) (s : St).

Ltac run_Execute H :=
  unfold Execute, call_GetPublicIP, call_Write, eval, deref,
    mbind, Exec_bind, mret, Exec_ret;
  cbn; rewrite H; cbn.

(** The fetch failed: the error is returned and nothing else is called. *)
Lemma Execute_fetch_failed g w f s p e s1 :
  GetPublicIP g s = ((p, Some e), s1) ->
  Execute g w f s = mkRun (Returned (Some e)) s1 [CallGetPublicIP].
Proof. intros Hget. run_Execute Hget. reflexivity. Qed.

(** The fetch returned neither an error nor a string: the dereference
    panics before [Write] is called. *)
Lemma Execute_fetch_nil g w f s s1 :
  GetPublicIP g s = ((None, None), s1) ->
  Execute g w f s
    = mkRun (Panicked NilPointerDereference) s1 [CallGetPublicIP].
Proof. intros Hget. run_Execute Hget. reflexivity. Qed.

(** The fetch returned a string: it is written, and the result of the
    write is the result of the run. *)
Lemma Execute_fetch_ok g w f s ip s1 err s2 :
  GetPublicIP g s = ((Some ip, None), s1) ->
  Write w f (bytes_of_string ip) (octal [6; 4; 4]) s1 = (err, s2) ->
  Execute g w f s
    = mkRun (Returned err) s2
        [CallGetPublicIP;
         CallWrite f (bytes_of_string ip) (octal [6; 4; 4])].
Proof.
  intros Hget Hwrite. run_Execute Hget. rewrite Hwrite. reflexivity.
Qed.

(** Every run of the function is one of the three above. *)
Lemma Execute_runs g w f s : ExecuteRun g w f s (Execute g w f s).
Proof.
  destruct (GetPublicIP g s) as [[p e] s1] eqn:Hget.
  destruct e as [e|].
  - rewrite (Execute_fetch_failed g w f s p e s1 Hget).
    eapply run_fetch_failed; eassumption.
  - destruct p as [ip|].
    + destruct (Write w f (bytes_of_string ip) (octal [6; 4; 4]) s1)
        as [err s2] eqn:Hwrite.
      rewrite (Execute_fetch_ok g w f s ip s1 err s2 Hget Hwrite).
      eapply run_written; eassumption.
    + rewrite (Execute_fetch_nil g w f s s1 Hget).
      apply run_nil_pointer; assumption.
Qed.

(** The bytes of a string, one by one. *)
Lemma bytes_of_string_lookup (str : string) (i : nat) :
  bytes_of_string str !! i = byte_of_ascii <$> String.get i str.
Proof.
  unfold bytes_of_string, list_byte_of_string.
  revert i. induction str as [|c str IH]; intros [|i]; cbn;
    try reflexivity.
  apply IH.
Qed.

Lemma bytes_of_string_length (str : string) :
  length (bytes_of_string str) = String.length str.
Proof.
  unfold bytes_of_string, list_byte_of_string.
  induction str as [|c str IH]; cbn; [reflexivity | now rewrite IH].
Qed.

(** The calls of [Write] in a trace of [Execute], with their
    arguments. *)
Lemma Execute_Write_call g w f s fn d pm :
  CallWrite fn d pm ∈ trace (Execute g w f s) ->
  exists ip s1,
    GetPublicIP g s = ((Some ip, None), s1) /\
    fn = f /\ d = bytes_of_string ip /\ pm = octal [6; 4; 4].
Proof.
  intros Hin.
  destruct (Execute_runs g w f s) as [p e s1 Hget|s1 Hget|ip s1 err s2 Hget Hw];
    cbn in Hin.
  - apply list_elem_of_singleton in Hin. discriminate.
  - apply list_elem_of_singleton in Hin. discriminate.
  - inversion Hin as [|? ? ? Hin']; subst.
    apply list_elem_of_singleton in Hin'. inversion Hin'; subst.
    exists ip, s1. repeat split; assumption.
Qed.

(** C1. Whenever [GetPublicIP] returns a non-nil error, [Execute]
    returns exactly that error and [Write] is never invoked: the run's
    trace holds no call of [Write], and the collaborators are left in
    the state in which [GetPublicIP] left them. *)
Theorem Execute_returns_fetch_error g w f s p e s1 :
  GetPublicIP g s = ((p, Some e), s1) ->
  outcome (Execute g w f s) = Returned (Some e) /\
  calls is_Write (trace (Execute g w f s)) = 0%nat /\
  final (Execute g w f s) = s1.
Proof.
  intros Hget. rewrite (Execute_fetch_failed g w f s p e s1 Hget).
  repeat split.
Qed.

(** C2. Whenever [GetPublicIP] returns a nil error and a non-nil
    pointer, [Execute] calls [Write] once, after [GetPublicIP], and
    returns exactly what that call of [Write] returned, nil or the
    error, leaving the collaborators in the state [Write] left. *)
Theorem Execute_returns_Write_result g w f s ip s1 :
  GetPublicIP g s = ((Some ip, None), s1) ->
  exists fn d pm,
    trace (Execute g w f s) = [CallGetPublicIP; CallWrite fn d pm] /\
    calls is_Write (trace (Execute g w f s)) = 1%nat /\
    outcome (Execute g w f s) = Returned (Write w fn d pm s1).1 /\
    final (Execute g w f s) = (Write w fn d pm s1).2.
Proof.
  intros Hget.
  destruct (Write w f (bytes_of_string ip) (octal [6; 4; 4]) s1)
    as [err s2] eqn:Hw.
  exists f, (bytes_of_string ip), (octal [6; 4; 4]).
  rewrite (Execute_fetch_ok g w f s ip s1 err s2 Hget Hw), Hw.
  repeat split.
Qed.

(** C3. Whenever [GetPublicIP] succeeds with a pointer to the string
    [ip], [Write] is called with data that is the bytes of [ip] and
    nothing else: as long as [ip], byte [i] of the data being character
    [i] of [ip], so that the data read back as a string is [ip]. *)
Theorem Execute_payload_fidelity g w f s ip s1 :
  GetPublicIP g s = ((Some ip, None), s1) ->
  (exists fn pm,
      CallWrite fn (list_byte_of_string ip) pm
        ∈ trace (Execute g w f s)) /\
  forall fn d pm,
    CallWrite fn d pm ∈ trace (Execute g w f s) ->
    length d = String.length ip /\
    (forall i : nat, d !! i = byte_of_ascii <$> String.get i ip) /\
    string_of_list_byte d = ip.
Proof.
  intros Hget. split.
  - destruct (Write w f (bytes_of_string ip) (octal [6; 4; 4]) s1)
      as [err s2] eqn:Hw.
    exists f, (octal [6; 4; 4]).
    rewrite (Execute_fetch_ok g w f s ip s1 err s2 Hget Hw).
    apply list_elem_of_further, list_elem_of_here.
  - intros fn d pm Hin.
    destruct (Execute_Write_call g w f s fn d pm Hin)
      as (ip' & s1' & Hget' & _ & -> & _).
    rewrite Hget in Hget'. injection Hget' as <- _.
    split; [apply bytes_of_string_length|].
    split; [apply bytes_of_string_lookup|].
    apply string_of_list_byte_of_string.
Qed.

(** C4. In every invocation of [Execute], [GetPublicIP] is called
    exactly once; [Write] is called at most once, only after a call of
    [GetPublicIP], and only if [GetPublicIP] returned a nil error; and
    when [Execute] returns nil, the calls are one [GetPublicIP] then
    one [Write]. *)
Theorem Execute_call_discipline g w f s :
  calls is_GetPublicIP (trace (Execute g w f s)) = 1%nat /\
  (calls is_Write (trace (Execute g w f s)) <= 1)%nat /\
  (forall (i : nat) fn d pm,
      trace (Execute g w f s) !! i = Some (CallWrite fn d pm) ->
      exists j : nat,
        (j < i)%nat /\
        trace (Execute g w f s) !! j = Some CallGetPublicIP) /\
  ((1 <= calls is_Write (trace (Execute g w f s)))%nat ->
   (GetPublicIP g s).1.2 = None) /\
  (outcome (Execute g w f s) = Returned None ->
   calls is_GetPublicIP (trace (Execute g w f s)) = 1%nat /\
   calls is_Write (trace (Execute g w f s)) = 1%nat /\
   exists fn d pm,
     trace (Execute g w f s) = [CallGetPublicIP; CallWrite fn d pm]).
Proof.
  destruct (Execute_runs g w f s)
    as [p e s1 Hget|s1 Hget|ip s1 err s2 Hget Hw]; cbn.
  - repeat split; try lia; try discriminate.
    intros [|[|i]] fn d pm Hi; discriminate.
  - repeat split; try lia; try discriminate.
    intros [|[|i]] fn d pm Hi; discriminate.
  - repeat split; try lia.
    + intros [|[|i]] fn d pm Hi; try discriminate.
      exists 0%nat. split; [lia | reflexivity].
    + now rewrite Hget.
    + eauto.
Qed.

(** C6. Whenever [Write] is invoked by [Execute], its filename argument
    is the [outputFile] that [Execute] was given. *)
Theorem Execute_destination_forwarded g w f s fn d pm :
  CallWrite fn d pm ∈ trace (Execute g w f s) ->
  fn = f.
Proof.
  intros Hin.
  destruct (Execute_Write_call g w f s fn d pm Hin)
    as (ip & s1 & _ & Hfn & _). exact Hfn.
Qed.

(** C7. [Execute] returns nil if and only if [GetPublicIP] returns a
    nil error with a string and the call of [Write] that follows
    returns a nil error; and when [GetPublicIP] returns an error, the
    only call made is that of [GetPublicIP], the state being as it left
    it. *)
Theorem Execute_success_iff g w f s :
  (outcome (Execute g w f s) = Returned None <->
   exists ip s1 s2,
     GetPublicIP g s = ((Some ip, None), s1) /\
     Write w f (bytes_of_string ip) (octal [6; 4; 4]) s1 = (None, s2)) /\
  (forall p e s1,
      GetPublicIP g s = ((p, Some e), s1) ->
      trace (Execute g w f s) = [CallGetPublicIP] /\
      final (Execute g w f s) = s1).
Proof.
  split; [split|].
  - intros Hout.
    destruct (Execute_runs g w f s)
      as [p e s1 Hget|s1 Hget|ip s1 err s2 Hget Hw]; cbn in Hout.
    + discriminate.
    + discriminate.
    + injection Hout as ->. eauto.
  - intros (ip & s1 & s2 & Hget & Hw).
    now rewrite (Execute_fetch_ok g w f s ip s1 None s2 Hget Hw).
  - intros p e s1 Hget.
    now rewrite (Execute_fetch_failed g w f s p e s1 Hget).
Qed.

(** C8. Whenever [Write] is invoked by [Execute], its permission
    argument is the mode 0644, that is 420: read and write for the
    owner, read for the group, read for the others, and no other
    bit. *)
Theorem Execute_permission_0644 g w f s fn d pm :
  CallWrite fn d pm ∈ trace (Execute g w f s) ->
  pm = octal [6; 4; 4] /\ pm = 420 /\
  rwx pm Owner = (true, true, false) /\
  rwx pm Group = (true, false, false) /\
  rwx pm Others = (true, false, false) /\
  Z.shiftr pm 9 = 0.
Proof.
  intros Hin.
  destruct (Execute_Write_call g w f s fn d pm Hin)
    as (ip & s1 & _ & _ & _ & ->).
  repeat split.
Qed.

(** C10. [Execute] dereferences the pointer returned by [GetPublicIP]
    without a nil check. When a nil error comes with a non-nil pointer,
    [Execute] returns; when [GetPublicIP] returns a nil pointer with a
    nil error, the dereference panics, after the call of [GetPublicIP]
    and before any call of [Write]. *)
Theorem Execute_nil_dereference g w f s p e s1 :
  GetPublicIP g s = ((p, e), s1) ->
  ((e = None -> p <> None) ->
   exists err, outcome (Execute g w f s) = Returned err) /\
  (e = None -> p = None ->
   outcome (Execute g w f s) = Panicked NilPointerDereference /\
   trace (Execute g w f s) = [CallGetPublicIP] /\
   final (Execute g w f s) = s1).
Proof.
  intros Hget. split.
  - intros Hpre. destruct e as [e|].
    + rewrite (Execute_fetch_failed g w f s p e s1 Hget). eauto.
    + destruct p as [ip|]; [|now destruct Hpre].
      destruct (Write w f (bytes_of_string ip) (octal [6; 4; 4]) s1)
        as [err s2] eqn:Hw.
      rewrite (Execute_fetch_ok g w f s ip s1 err s2 Hget Hw). eauto.
  - intros -> ->.
    now rewrite (Execute_fetch_nil g w f s s1 Hget).
Qed.

End Runs.

(** ** The scenarios of the test, run on the doubles *)

Import doubles.

(** TestExecute: no error, and the controller received the two expected
    calls, once each. *)
Example TestExecute :
  Execute okIPGetter okFileWriter expectedOutputFile NewController
  = mkRun (Returned None)
      [CallGetPublicIP;
       CallWrite "output.txt" (bytes_of_string "184.162.7.66") 420]
      [CallGetPublicIP;
       CallWrite "output.txt" (bytes_of_string "184.162.7.66") 420].
Proof. reflexivity. Qed.

Example Execute_fetch_error :
  Execute failingIPGetter okFileWriter expectedOutputFile NewController
  = mkRun (Returned (Some fetchError)) [CallGetPublicIP] [CallGetPublicIP].
Proof. reflexivity. Qed.

Example Execute_persist_error :
  outcome
    (Execute okIPGetter failingFileWriter expectedOutputFile NewController)
  = Returned (Some persistError).
Proof. reflexivity. Qed.

Example Execute_nil_nil :
  Execute nilIPGetter okFileWriter expectedOutputFile NewController
  = mkRun (Panicked NilPointerDereference)
      [CallGetPublicIP] [CallGetPublicIP].
Proof. reflexivity. Qed.

(** On the doubles, the calls the controller received are the calls the
    run made. *)
Lemma controller_received_trace (g : MockIPGetter) (w : MockFileWriter)
    (f : string) (ctrl : Controller) :
  final (Execute g w f ctrl) = ctrl ++ trace (Execute g w f ctrl).
Proof.
  destruct (Execute_runs g w f ctrl)
    as [p e s1 Hget|s1 Hget|ip s1 err s2 Hget Hw]; cbn in *.
  - now injection Hget as _ <-.
  - now injection Hget as _ <-.
  - injection Hget as _ <-. injection Hw as _ <-.
    now rewrite <- app_assoc.
Qed.

Lemma Execute_returns_fetch_error_witness :
  GetPublicIP failingIPGetter NewController
    = ((None, Some fetchError), [CallGetPublicIP]) /\
  (outcome (Execute failingIPGetter okFileWriter "output.txt" NewController)
     = Returned (Some fetchError) /\
   calls is_Write
     (trace (Execute failingIPGetter okFileWriter "output.txt"
               NewController)) = 0%nat /\
   final (Execute failingIPGetter okFileWriter "output.txt" NewController)
     = [CallGetPublicIP]).
Proof.
  split; [reflexivity|].
  apply (Execute_returns_fetch_error failingIPGetter okFileWriter
           "output.txt" NewController None fetchError [CallGetPublicIP]).
  reflexivity.
Defined.

Lemma Execute_returns_Write_result_witness :
  GetPublicIP okIPGetter NewController
    = ((Some expectedIP, None), [CallGetPublicIP]) /\
  exists fn d pm,
    trace (Execute okIPGetter failingFileWriter "output.txt" NewController)
      = [CallGetPublicIP; CallWrite fn d pm] /\
    calls is_Write
      (trace (Execute okIPGetter failingFileWriter "output.txt"
                NewController)) = 1%nat /\
    outcome (Execute okIPGetter failingFileWriter "output.txt"
               NewController)
      = Returned (Write failingFileWriter fn d pm [CallGetPublicIP]).1 /\
    final (Execute okIPGetter failingFileWriter "output.txt" NewController)
      = (Write failingFileWriter fn d pm [CallGetPublicIP]).2.
Proof.
  split; [reflexivity|].
  apply (Execute_returns_Write_result okIPGetter failingFileWriter
           "output.txt" NewController expectedIP [CallGetPublicIP]).
  reflexivity.
Defined.

Lemma Execute_payload_fidelity_witness :
  GetPublicIP okIPGetter NewController
    = ((Some expectedIP, None), [CallGetPublicIP]) /\
  ((exists fn pm,
       CallWrite fn (list_byte_of_string expectedIP) pm
         ∈ trace (Execute okIPGetter okFileWriter "output.txt"
                    NewController)) /\
   forall fn d pm,
     CallWrite fn d pm
       ∈ trace (Execute okIPGetter okFileWriter "output.txt"
                  NewController) ->
     length d = String.length expectedIP /\
     (forall i : nat, d !! i = byte_of_ascii <$> String.get i expectedIP) /\
     string_of_list_byte d = expectedIP).
Proof.
  split; [reflexivity|].
  apply (Execute_payload_fidelity okIPGetter okFileWriter
           "output.txt" NewController expectedIP [CallGetPublicIP]).
  reflexivity.
Defined.

Lemma Execute_destination_forwarded_witness :
  CallWrite "output.txt" (bytes_of_string expectedIP) 420
    ∈ trace (Execute okIPGetter okFileWriter "output.txt" NewController) /\
  "output.txt" = "output.txt".
Proof.
  assert (Hin : CallWrite "output.txt" (bytes_of_string expectedIP) 420
            ∈ trace (Execute okIPGetter okFileWriter "output.txt"
                       NewController))
    by apply list_elem_of_further, list_elem_of_here.
  split; [exact Hin|].
  exact (Execute_destination_forwarded okIPGetter okFileWriter
           "output.txt" NewController _ _ _ Hin).
Defined.

Lemma Execute_permission_0644_witness :
  CallWrite "ip.txt" (bytes_of_string expectedIP) (octal [6; 4; 4])
    ∈ trace (Execute okIPGetter failingFileWriter "ip.txt" NewController) /\
  (octal [6; 4; 4] = octal [6; 4; 4] /\ octal [6; 4; 4] = 420 /\
   rwx (octal [6; 4; 4]) Owner = (true, true, false) /\
   rwx (octal [6; 4; 4]) Group = (true, false, false) /\
   rwx (octal [6; 4; 4]) Others = (true, false, false) /\
   Z.shiftr (octal [6; 4; 4]) 9 = 0).
Proof.
  assert (Hin : CallWrite "ip.txt" (bytes_of_string expectedIP)
                  (octal [6; 4; 4])
            ∈ trace (Execute okIPGetter failingFileWriter "ip.txt"
                       NewController))
    by apply list_elem_of_further, list_elem_of_here.
  split; [exact Hin|].
  exact (Execute_permission_0644 okIPGetter failingFileWriter
           "ip.txt" NewController _ _ _ Hin).
Defined.

Lemma Execute_nil_dereference_witness :
  (exists err,
      outcome (Execute okIPGetter okFileWriter "output.txt" NewController)
        = Returned err) /\
  (outcome (Execute nilIPGetter okFileWriter "output.txt" NewController)
     = Panicked NilPointerDereference /\
   trace (Execute nilIPGetter okFileWriter "output.txt" NewController)
     = [CallGetPublicIP] /\
   final (Execute nilIPGetter okFileWriter "output.txt" NewController)
     = [CallGetPublicIP]).
Proof.
  split.
  - apply (Execute_nil_dereference okIPGetter okFileWriter "output.txt"
             NewController (Some expectedIP) None [CallGetPublicIP]).
    + reflexivity.
    + intros _. discriminate.
  - apply (Execute_nil_dereference nilIPGetter okFileWriter "output.txt"
             NewController None None [CallGetPublicIP]);
      reflexivity.
Defined.

End ExecuteSpec.

(** * Properties of [internal.Ipify.GetPublicIP] *)

Module IpifySpec.
Import internal.

Section Adapter.
Context {Body : Type}.
Variable http_Get : string -> ptr (Response Body) * error.
Variable io_ReadAll : Body -> list byte * error.
Variable json_Unmarshal : list byte -> GoMap -> GoMap * error.

Local Abbreviation GetPublicIP :=
  (internal.GetPublicIP http_Get io_ReadAll json_Unmarshal).

(** Indexing a map at a key it does not hold gives the empty string. *)
Lemma map_index_absent (m : GoMap) (k : string) :
  ~ has_key m k -> map_index m k = "".
Proof.
  destruct m as [entries|]; cbn; [|reflexivity].
  intros Habsent. destruct (entries !! k) as [v|] eqn:Hk.
  - exfalso. apply Habsent. now exists v.
  - reflexivity.
Qed.

(** When the three library calls succeed, the adapter returns the
    address of [result["ip"]] and a nil error. *)
Lemma GetPublicIP_decoded i resp body m :
  http_Get "https://api.ipify.org?format=json" = (Some resp, None) ->
  io_ReadAll (resp_Body resp) = (body, None) ->
  json_Unmarshal body None = (m, None) ->
  GetPublicIP i = Returned (Some (map_index m "ip"), None).
Proof.
  intros Hget Hread Hdecode. unfold internal.GetPublicIP.
  rewrite Hget. cbn. rewrite Hread, Hdecode. reflexivity.
Qed.

(** A decoding error is returned as it is, with a nil pointer. *)
Lemma GetPublicIP_decode_error i resp body m e :
  http_Get "https://api.ipify.org?format=json" = (Some resp, None) ->
  io_ReadAll (resp_Body resp) = (body, None) ->
  json_Unmarshal body None = (m, Some e) ->
  GetPublicIP i = Returned (None, Some e).
Proof.
  intros Hget Hread Hdecode. unfold internal.GetPublicIP.
  rewrite Hget. cbn. rewrite Hread, Hdecode. reflexivity.
Qed.

(** C5, as amended. After a successful fetch and a successful decoding,
    when the decoded map has no key [ip], the adapter does not fail: it
    returns a nil error and a pointer to the empty string. *)
Theorem GetPublicIP_missing_ip i resp body m :
  http_Get "https://api.ipify.org?format=json" = (Some resp, None) ->
  io_ReadAll (resp_Body resp) = (body, None) ->
  json_Unmarshal body None = (m, None) ->
  ~ has_key m "ip" ->
  GetPublicIP i = Returned (Some "", None).
Proof.
  intros Hget Hread Hdecode Habsent.
  rewrite (GetPublicIP_decoded i resp body m Hget Hread Hdecode).
  now rewrite (map_index_absent m "ip" Habsent).
Qed.

(** C9. Whenever the adapter returns a nil error, the pointer it
    returns is not nil. *)
Theorem GetPublicIP_success_non_nil i p :
  GetPublicIP i = Returned (p, None) ->
  p <> None /\ exists ip, p = Some ip.
Proof.
  unfold internal.GetPublicIP.
  destruct (http_Get _) as [resp [e|]]; [discriminate|].
  destruct resp as [resp|]; cbn; [|discriminate].
  destruct (io_ReadAll _) as [body [e|]]; [discriminate|].
  destruct (json_Unmarshal _ _) as [m [e|]]; [discriminate|].
  intros Hret. injection Hret as <-.
  split; [discriminate | eauto].
Qed.

End Adapter.

Import doubles.

Example GetPublicIP_ip_object :
  GetPublicIP_on ip_object = Returned (Some "184.162.7.66", None).
Proof. reflexivity. Qed.

(** C5, as stated, fails on the empty JSON object: the fetch, the read
    and the decoding succeed, the decoded object has no [ip], and the
    adapter returns a nil error. *)
Lemma GetPublicIP_missing_ip_counterexample :
  http_Get empty_object "https://api.ipify.org?format=json"
    = (Some (mkResponse (bytes_of_string "{}")), None) /\
  io_ReadAll empty_object (bytes_of_string "{}")
    = (bytes_of_string "{}", None) /\
  json_Unmarshal empty_object (bytes_of_string "{}") None
    = (Some ∅, None) /\
  ~ has_key (Some ∅) "ip" /\
  GetPublicIP_on empty_object = Returned (Some "", None) /\
  ~ exists p e, GetPublicIP_on empty_object = Returned (p, Some e).
Proof.
  repeat split.
  - intros [v Hv]. discriminate.
  - intros (p & e & Hret). discriminate.
Qed.

Lemma GetPublicIP_missing_ip_witness :
  (http_Get empty_object "https://api.ipify.org?format=json"
     = (Some (mkResponse (bytes_of_string "{}")), None) /\
   io_ReadAll empty_object (bytes_of_string "{}")
     = (bytes_of_string "{}", None) /\
   json_Unmarshal empty_object (bytes_of_string "{}") None
     = (Some ∅, None) /\
   ~ has_key (Some ∅) "ip") /\
  GetPublicIP_on empty_object = Returned (Some "", None).
Proof.
  assert (Habsent : ~ has_key (Some ∅) "ip")
    by (intros [v Hv]; discriminate).
  split; [repeat split; exact Habsent|].
  exact (GetPublicIP_missing_ip (http_Get empty_object)
           (io_ReadAll empty_object) (json_Unmarshal empty_object)
           mkIpify (mkResponse (bytes_of_string "{}"))
           (bytes_of_string "{}") (Some ∅)
           eq_refl eq_refl eq_refl Habsent).
Defined.

Lemma GetPublicIP_success_non_nil_witness :
  GetPublicIP_on ip_object = Returned (Some expectedIP, None) /\
  (Some expectedIP <> None /\ exists ip, Some expectedIP = Some ip).
Proof.
  split; [reflexivity|].
  apply (GetPublicIP_success_non_nil (http_Get ip_object)
           (io_ReadAll ip_object) (json_Unmarshal ip_object)
           mkIpify (Some expectedIP)).
  reflexivity.
Defined.

End IpifySpec.

(** * More on [internal.Ipify.GetPublicIP] *)

Module AdapterSpec.
Import internal.

Section Adapter.
Context {Body : Type}.
Variable http_Get : string -> ptr (Response Body) * error.
Variable io_ReadAll : Body -> list byte * error.
Variable json_Unmarshal : list byte -> GoMap -> GoMap * error.

Local Abbreviation GetPublicIP :=
  (internal.GetPublicIP http_Get io_ReadAll json_Unmarshal).

(** X1. The adapter has no error of its own. It returns a non-nil error
    exactly when [http.Get], or else [io.ReadAll], or else
    [json.Unmarshal] returns one: the error returned is that of the first
    of the three calls that fails, and it comes with a nil pointer. *)
Theorem GetPublicIP_error_relayed i p e :
  GetPublicIP i = Returned (p, Some e) <->
  p = None /\
  ((http_Get "https://api.ipify.org?format=json").2 = Some e \/
   exists resp,
     http_Get "https://api.ipify.org?format=json" = (Some resp, None) /\
     ((io_ReadAll (resp_Body resp)).2 = Some e \/
      exists body,
        io_ReadAll (resp_Body resp) = (body, None) /\
        (json_Unmarshal body None).2 = Some e)).
Proof.
  unfold internal.GetPublicIP.
  destruct (http_Get _) as [resp [e1|]]; cbn.
  - split.
    + intros [= <- <-]. split; [reflexivity | now left].
    + intros [-> [[= ->]|(resp' & [=] & _)]]. reflexivity.
  - destruct resp as [resp|]; cbn.
    + destruct (io_ReadAll _) as [body [e2|]] eqn:Hread; cbn.
      * split.
        -- intros [= <- <-]. split; [reflexivity|].
           right. exists resp. split; [reflexivity|].
           left. now rewrite Hread.
        -- intros [-> [[=]|(resp' & [= <-] & Hcause)]].
           rewrite Hread in Hcause. cbn in Hcause.
           destruct Hcause as [[= ->]|(body' & [=] & _)]. reflexivity.
      * destruct (json_Unmarshal _ _) as [m [e3|]] eqn:Hdecode; cbn.
        -- split.
           ++ intros [= <- <-]. split; [reflexivity|].
              right. exists resp. split; [reflexivity|].
              right. exists body. split; [exact Hread|].
              now rewrite Hdecode.
           ++ intros [-> [[=]|(resp' & [= <-] & Hcause)]].
              rewrite Hread in Hcause. cbn in Hcause.
              destruct Hcause as [[=]|(body' & [= <-] & Hcause)].
              rewrite Hdecode in Hcause. now injection Hcause as ->.
        -- split; [discriminate|].
           intros [_ [[=]|(resp' & [= <-] & Hcause)]].
           rewrite Hread in Hcause. cbn in Hcause.
           destruct Hcause as [[=]|(body' & [= <-] & Hcause)].
           rewrite Hdecode in Hcause. discriminate.
    + split; [discriminate|].
      intros [_ [[=]|(resp' & [=] & _)]].
Qed.

(** X2. When the request, the read and the decoding succeed and the
    decoded object has a field [ip], the adapter returns a pointer to
    that field's value, whatever string it is, and a nil error. *)
Theorem GetPublicIP_returns_ip_field i resp body entries v :
  http_Get "https://api.ipify.org?format=json" = (Some resp, None) ->
  io_ReadAll (resp_Body resp) = (body, None) ->
  json_Unmarshal body None = (Some entries, None) ->
  entries !! "ip" = Some v ->
  GetPublicIP i = Returned (Some v, None).
Proof.
  intros Hget Hread Hdecode Hip.
  rewrite (IpifySpec.GetPublicIP_decoded http_Get io_ReadAll json_Unmarshal
             i resp body (Some entries) Hget Hread Hdecode).
  cbn. now rewrite Hip.
Qed.

(** X3. The adapter dereferences the response without a nil check: it
    panics exactly when [http.Get] returns a nil response with a nil
    error, and returns in every other case. *)
Theorem GetPublicIP_panics_iff i :
  (GetPublicIP i = Panicked NilPointerDereference <->
   http_Get "https://api.ipify.org?format=json" = (None, None)) /\
  (http_Get "https://api.ipify.org?format=json" <> (None, None) <->
   exists p e, GetPublicIP i = Returned (p, e)).
Proof.
  unfold internal.GetPublicIP.
  destruct (http_Get _) as [resp [e1|]]; cbn.
  - split; split; try discriminate; eauto.
  - destruct resp as [resp|]; cbn.
    + destruct (io_ReadAll _) as [body [e2|]];
        [split; split; try discriminate; eauto|].
      destruct (json_Unmarshal _ _) as [m [e3|]];
        split; split; try discriminate; eauto.
    + split; split; try reflexivity.
      * intros Hne. now destruct Hne.
      * intros (p & e & Hret). discriminate.
Qed.

End Adapter.

Import doubles scenarios.

Example GetPublicIP_unreachable :
  GetPublicIP_on unreachable = Returned (None, Some fetchError).
Proof. reflexivity. Qed.

Example GetPublicIP_broken_body :
  GetPublicIP_on broken_body = Returned (None, Some readError).
Proof. reflexivity. Qed.

Example GetPublicIP_not_json :
  GetPublicIP_on not_json = Returned (None, Some decodeError).
Proof. reflexivity. Qed.

Example GetPublicIP_no_response :
  GetPublicIP_on no_response = Panicked NilPointerDereference.
Proof. reflexivity. Qed.

Lemma GetPublicIP_returns_ip_field_witness :
  (http_Get ip_object "https://api.ipify.org?format=json"
     = (Some (mkResponse (bytes_of_string ip_object_body)), None) /\
   io_ReadAll ip_object (bytes_of_string ip_object_body)
     = (bytes_of_string ip_object_body, None) /\
   json_Unmarshal ip_object (bytes_of_string ip_object_body) None
     = (Some {[ "ip" := expectedIP ]}, None) /\
   ({[ "ip" := expectedIP ]} : gmap string string) !! "ip"
     = Some expectedIP) /\
  GetPublicIP_on ip_object = Returned (Some expectedIP, None).
Proof.
  split; [repeat split|].
  exact (GetPublicIP_returns_ip_field (http_Get ip_object)
           (io_ReadAll ip_object) (json_Unmarshal ip_object)
           mkIpify (mkResponse (bytes_of_string ip_object_body))
           (bytes_of_string ip_object_body)
           {[ "ip" := expectedIP ]} expectedIP
           eq_refl eq_refl eq_refl eq_refl).
Defined.

End AdapterSpec.

(** * Properties of [func main] *)

Module ProgramSpec.
Import internal program.

Section Command.
Context {Body FS : Type}.
Variable http_Get : string -> ptr (Response Body) * error.
Variable io_ReadAll : Body -> list byte * error.
Variable json_Unmarshal : list byte -> GoMap -> GoMap * error.
Variable ioutil_WriteFile :
  string -> list byte -> FileMode -> FS -> error * FS.

Local Abbreviation main :=
  (program.main http_Get io_ReadAll json_Unmarshal ioutil_WriteFile).
Local Abbreviation Execute_adapters :=
  (program.Execute_adapters http_Get io_ReadAll json_Unmarshal
     ioutil_WriteFile).

Ltac run_adapters :=
  unfold program.Execute_adapters, main.Execute, main.call_GetPublicIP,
    main.call_Write, main.eval, deref, mbind, main.Exec_bind, mret,
    main.Exec_ret, program.Ipify_IPGetter, program.FileRepository_FileWriter,
    internal.Write, internal.GetPublicIP;
  cbn.

(** The command, once the argument is there, by what the four library
    calls return. *)
Lemma main_run os_Args fs f :
  os_Args !! 1%nat = Some f ->
  main os_Args fs =
    match http_Get "https://api.ipify.org?format=json" with
    | (_, Some e) => mkProcess (Exited 1) [e] fs
    | (None, None) =>
        mkProcess (Aborted (Raised NilPointerDereference)) [] fs
    | (Some resp, None) =>
        match io_ReadAll (resp_Body resp) with
        | (_, Some e) => mkProcess (Exited 1) [e] fs
        | (body, None) =>
            match json_Unmarshal body None with
            | (_, Some e) => mkProcess (Exited 1) [e] fs
            | (m, None) =>
                match ioutil_WriteFile f
                        (bytes_of_string (map_index m "ip"))
                        (octal [6; 4; 4]) fs with
                | (Some e, fs') => mkProcess (Exited 1) [e] fs'
                | (None, fs') => mkProcess (Exited 0) [] fs'
                end
            end
        end
    end.
Proof.
  intros Harg. unfold program.main. rewrite Harg. run_adapters.
  destruct (http_Get _) as [[resp|] [e1|]]; cbn; try reflexivity.
  destruct (io_ReadAll _) as [body [e2|]]; cbn; try reflexivity.
  destruct (json_Unmarshal _ _) as [m [e3|]]; cbn; try reflexivity.
  destruct (ioutil_WriteFile _ _ _ _) as [[e4|] fs']; reflexivity.
Qed.

(** X4. Without a first argument the command panics on [os.Args[1]]
    before anything else happens: nothing is logged and the file system
    is as it was, whatever the lookup service would have answered. *)
Theorem main_missing_argument os_Args fs :
  (length os_Args <= 1)%nat ->
  main os_Args fs
  = mkProcess (Aborted (IndexOutOfRange 1 (length os_Args))) [] fs.
Proof.
  intros Hlen. unfold program.main.
  now rewrite (proj2 (lookup_ge_None os_Args 1%nat) Hlen).
Qed.

(** X5. With a first argument, the command exits with status 0 exactly
    when the request, the read, the decoding and the write all return a
    nil error, the write being that of the bytes of [result["ip"]] to the
    file named by the argument, with mode 0644. *)
Theorem main_exit_zero_iff os_Args fs f :
  os_Args !! 1%nat = Some f ->
  (termination (main os_Args fs) = Exited 0 <->
   exists resp body m fs',
     http_Get "https://api.ipify.org?format=json" = (Some resp, None) /\
     io_ReadAll (resp_Body resp) = (body, None) /\
     json_Unmarshal body None = (m, None) /\
     ioutil_WriteFile f (bytes_of_string (map_index m "ip"))
       (octal [6; 4; 4]) fs = (None, fs')).
Proof.
  intros Harg. rewrite (main_run os_Args fs f Harg).
  destruct (http_Get _) as [[resp|] [e1|]]; cbn.
  - split; [discriminate | intros (? & ? & ? & ? & [=] & _)].
  - destruct (io_ReadAll _) as [body [e2|]] eqn:Hread; cbn.
    + split; [discriminate|].
      intros (? & ? & ? & ? & [= <-] & Hread' & _). congruence.
    + destruct (json_Unmarshal _ _) as [m [e3|]] eqn:Hdecode; cbn.
      * split; [discriminate|].
        intros (? & ? & ? & ? & [= <-] & Hread' & Hdecode' & _).
        congruence.
      * destruct (ioutil_WriteFile _ _ _ _) as [[e4|] fs'] eqn:Hwrite; cbn.
        -- split; [discriminate|].
           intros (? & ? & ? & ? & [= <-] & Hread' & Hdecode' & Hwrite').
           rewrite Hread in Hread'. injection Hread' as <-.
           rewrite Hdecode in Hdecode'. injection Hdecode' as <-.
           congruence.
        -- split; [|reflexivity].
           intros _. exists resp, body, m, fs'. auto.
  - split; [discriminate | intros (? & ? & ? & ? & [=] & _)].
  - split; [discriminate | intros (? & ? & ? & ? & [=] & _)].
Qed.

(** X6. With a first argument, the command exits with status 1 having
    logged one line [e] exactly when [e] is the error of the first of the
    four library calls to fail: the request, else the read, else the
    decoding, else the write. *)
Theorem main_fatal os_Args fs f e :
  os_Args !! 1%nat = Some f ->
  (termination (main os_Args fs) = Exited 1 /\
   logged (main os_Args fs) = [e] <->
   (http_Get "https://api.ipify.org?format=json").2 = Some e \/
   exists resp,
     http_Get "https://api.ipify.org?format=json" = (Some resp, None) /\
     ((io_ReadAll (resp_Body resp)).2 = Some e \/
      exists body,
        io_ReadAll (resp_Body resp) = (body, None) /\
        ((json_Unmarshal body None).2 = Some e \/
         exists m,
           json_Unmarshal body None = (m, None) /\
           (ioutil_WriteFile f (bytes_of_string (map_index m "ip"))
              (octal [6; 4; 4]) fs).1 = Some e))).
Proof.
  intros Harg. rewrite (main_run os_Args fs f Harg).
  destruct (http_Get _) as [[resp|] [e1|]]; cbn.
  - split.
    + intros [_ [= ->]]. now left.
    + intros [[= ->]|(? & [=] & _)]. now split.
  - destruct (io_ReadAll _) as [body [e2|]] eqn:Hread; cbn.
    + split.
      * intros [_ [= ->]]. right. exists resp. split; [reflexivity|].
        left. now rewrite Hread.
      * intros [[=]|(? & [= <-] & Hcause)].
        rewrite Hread in Hcause. cbn in Hcause.
        destruct Hcause as [[= ->]|(? & [=] & _)]. now split.
    + destruct (json_Unmarshal _ _) as [m [e3|]] eqn:Hdecode; cbn.
      * split.
        -- intros [_ [= ->]]. right. exists resp. split; [reflexivity|].
           right. exists body. split; [exact Hread|].
           left. now rewrite Hdecode.
        -- intros [[=]|(? & [= <-] & Hcause)].
           rewrite Hread in Hcause. cbn in Hcause.
           destruct Hcause as [[=]|(? & [= <-] & Hcause)].
           rewrite Hdecode in Hcause. cbn in Hcause.
           destruct Hcause as [[= ->]|(? & [=] & _)]. now split.
      * destruct (ioutil_WriteFile _ _ _ _) as [[e4|] fs'] eqn:Hwrite; cbn.
        -- split.
           ++ intros [_ [= ->]]. right. exists resp. split; [reflexivity|].
              right. exists body. split; [exact Hread|].
              right. exists m. split; [exact Hdecode|].
              now rewrite Hwrite.
           ++ intros [[=]|(? & [= <-] & Hcause)].
              rewrite Hread in Hcause. cbn in Hcause.
              destruct Hcause as [[=]|(? & [= <-] & Hcause)].
              rewrite Hdecode in Hcause. cbn in Hcause.
              destruct Hcause as [[=]|(? & [= <-] & Hcause)].
              rewrite Hwrite in Hcause. cbn in Hcause.
              injection Hcause as ->. now split.
        -- split.
           ++ intros [[=] _].
           ++ intros [[=]|(? & [= <-] & Hcause)].
              rewrite Hread in Hcause. cbn in Hcause.
              destruct Hcause as [[=]|(? & [= <-] & Hcause)].
              rewrite Hdecode in Hcause. cbn in Hcause.
              destruct Hcause as [[=]|(? & [= <-] & Hcause)].
              rewrite Hwrite in Hcause. discriminate.
  - split.
    + intros [_ [= ->]]. now left.
    + intros [[= ->]|(? & [=] & _)]. now split.
  - split.
    + intros [[=] _].
    + intros [[=]|(? & [=] & _)].
Qed.

(** X7. With a first argument, the command touches the file system by at
    most one call of [ioutil.WriteFile]: when the request, the read and
    the decoding succeed, the file system is left as that call leaves it,
    for the file named by the argument, the bytes of [result["ip"]] and
    the mode 0644; in every other case it is left as it was. *)
Theorem main_disk os_Args fs f :
  os_Args !! 1%nat = Some f ->
  (forall resp body m,
      http_Get "https://api.ipify.org?format=json" = (Some resp, None) ->
      io_ReadAll (resp_Body resp) = (body, None) ->
      json_Unmarshal body None = (m, None) ->
      disk (main os_Args fs)
      = (ioutil_WriteFile f (bytes_of_string (map_index m "ip"))
           (octal [6; 4; 4]) fs).2) /\
  ((~ exists resp body m,
        http_Get "https://api.ipify.org?format=json" = (Some resp, None) /\
        io_ReadAll (resp_Body resp) = (body, None) /\
        json_Unmarshal body None = (m, None)) ->
   disk (main os_Args fs) = fs).
Proof.
  intros Harg. rewrite (main_run os_Args fs f Harg). split.
  - intros resp body m -> -> ->.
    now destruct (ioutil_WriteFile _ _ _ _) as [[e4|] fs'].
  - intros Hnot.
    destruct (http_Get _) as [[resp|] [e1|]]; cbn; try reflexivity.
    destruct (io_ReadAll _) as [body [e2|]] eqn:Hread; cbn;
      try reflexivity.
    destruct (json_Unmarshal _ _) as [m [e3|]] eqn:Hdecode; cbn;
      try reflexivity.
    exfalso. apply Hnot. exists resp, body, m. auto.
Qed.

(** X8. When the lookup service answers with an object that has no field
    [ip], the command does not fail for it: it writes the empty sequence
    of bytes to the file named by the argument, and exits with status 0
    when that write succeeds. *)
Theorem main_missing_ip_writes_nothing os_Args fs f resp body m :
  os_Args !! 1%nat = Some f ->
  http_Get "https://api.ipify.org?format=json" = (Some resp, None) ->
  io_ReadAll (resp_Body resp) = (body, None) ->
  json_Unmarshal body None = (m, None) ->
  ~ has_key m "ip" ->
  disk (main os_Args fs) = (ioutil_WriteFile f [] (octal [6; 4; 4]) fs).2 /\
  ((ioutil_WriteFile f [] (octal [6; 4; 4]) fs).1 = None ->
   termination (main os_Args fs) = Exited 0 /\
   logged (main os_Args fs) = []).
Proof.
  intros Harg Hget Hread Hdecode Habsent.
  rewrite (main_run os_Args fs f Harg), Hget, Hread, Hdecode.
  rewrite (IpifySpec.map_index_absent m "ip" Habsent).
  change (bytes_of_string "") with (@nil byte).
  destruct (ioutil_WriteFile _ _ _ _) as [[e4|] fs']; cbn.
  - split; [reflexivity | discriminate].
  - split; [reflexivity | now split].
Qed.

(** X9. The program with the two interfaces does what the first version
    of README.md does: [Execute] on the two adapters of package internal
    ends as the one-function [Execute] ends, with the same error or the
    same panic, and leaves the same file system. *)
Theorem Execute_adapters_as_first_version f fs :
  main.outcome (Execute_adapters f fs)
  = (monolith.Execute http_Get io_ReadAll json_Unmarshal ioutil_WriteFile
       f fs).1 /\
  main.final (Execute_adapters f fs)
  = (monolith.Execute http_Get io_ReadAll json_Unmarshal ioutil_WriteFile
       f fs).2.
Proof.
  run_adapters. unfold monolith.Execute, deref.
  destruct (http_Get _) as [[resp|] [e1|]]; cbn; try (split; reflexivity).
  destruct (io_ReadAll _) as [body [e2|]]; cbn; try (split; reflexivity).
  destruct (json_Unmarshal _ _) as [m [e3|]]; cbn; try (split; reflexivity).
  destruct (ioutil_WriteFile _ _ _ _) as [e4 fs']; split; reflexivity.
Qed.

End Command.

(** ** The command on the scenarios *)

Import doubles scenarios.

Example main_writes_the_ip :
  main_on ip_object with_argument no_files
  = mkProcess (Exited 0) []
      {[ "output.txt" := (bytes_of_string "184.162.7.66", 420) ]}.
Proof. reflexivity. Qed.

Example main_unreachable :
  main_on unreachable with_argument no_files
  = mkProcess (Exited 1) [fetchError] ∅.
Proof. reflexivity. Qed.

Example main_no_response :
  main_on no_response with_argument no_files
  = mkProcess (Aborted (Raised NilPointerDereference)) [] ∅.
Proof. reflexivity. Qed.

Example main_read_only :
  program.main (http_Get ip_object) (io_ReadAll ip_object)
    (json_Unmarshal ip_object) readonly_WriteFile with_argument no_files
  = mkProcess (Exited 1) [writeError] ∅.
Proof. reflexivity. Qed.

Lemma main_missing_argument_witness :
  (length without_argument <= 1)%nat /\
  main_on ip_object without_argument no_files
  = mkProcess (Aborted (IndexOutOfRange 1 1)) [] no_files.
Proof.
  assert (Hlen : (length without_argument <= 1)%nat) by (cbn; lia).
  split; [exact Hlen|].
  exact (main_missing_argument (http_Get ip_object) (io_ReadAll ip_object)
           (json_Unmarshal ip_object) mem_WriteFile
           without_argument no_files Hlen).
Defined.

Lemma main_exit_zero_iff_witness :
  with_argument !! 1%nat = Some "output.txt" /\
  (termination (main_on ip_object with_argument no_files) = Exited 0 <->
   exists resp body m fs',
     http_Get ip_object "https://api.ipify.org?format=json"
       = (Some resp, None) /\
     io_ReadAll ip_object (resp_Body resp) = (body, None) /\
     json_Unmarshal ip_object body None = (m, None) /\
     mem_WriteFile "output.txt" (bytes_of_string (map_index m "ip"))
       (octal [6; 4; 4]) no_files = (None, fs')).
Proof.
  split; [reflexivity|].
  exact (main_exit_zero_iff (http_Get ip_object) (io_ReadAll ip_object)
           (json_Unmarshal ip_object) mem_WriteFile
           with_argument no_files "output.txt" eq_refl).
Defined.

Lemma main_fatal_witness :
  with_argument !! 1%nat = Some "output.txt" /\
  (termination (main_on not_json with_argument no_files) = Exited 1 /\
   logged (main_on not_json with_argument no_files) = [decodeError] <->
   (http_Get not_json "https://api.ipify.org?format=json").2
     = Some decodeError \/
   exists resp,
     http_Get not_json "https://api.ipify.org?format=json"
       = (Some resp, None) /\
     ((io_ReadAll not_json (resp_Body resp)).2 = Some decodeError \/
      exists body,
        io_ReadAll not_json (resp_Body resp) = (body, None) /\
        ((json_Unmarshal not_json body None).2 = Some decodeError \/
         exists m,
           json_Unmarshal not_json body None = (m, None) /\
           (mem_WriteFile "output.txt"
              (bytes_of_string (map_index m "ip"))
              (octal [6; 4; 4]) no_files).1 = Some decodeError))).
Proof.
  split; [reflexivity|].
  exact (main_fatal (http_Get not_json) (io_ReadAll not_json)
           (json_Unmarshal not_json) mem_WriteFile
           with_argument no_files "output.txt" decodeError eq_refl).
Defined.

Lemma main_disk_witness :
  with_argument !! 1%nat = Some "output.txt" /\
  ((forall resp body m,
       http_Get ip_object "https://api.ipify.org?format=json"
         = (Some resp, None) ->
       io_ReadAll ip_object (resp_Body resp) = (body, None) ->
       json_Unmarshal ip_object body None = (m, None) ->
       disk (main_on ip_object with_argument no_files)
       = (mem_WriteFile "output.txt" (bytes_of_string (map_index m "ip"))
            (octal [6; 4; 4]) no_files).2) /\
   ((~ exists resp body m,
         http_Get ip_object "https://api.ipify.org?format=json"
           = (Some resp, None) /\
         io_ReadAll ip_object (resp_Body resp) = (body, None) /\
         json_Unmarshal ip_object body None = (m, None)) ->
    disk (main_on ip_object with_argument no_files) = no_files)).
Proof.
  split; [reflexivity|].
  exact (main_disk (http_Get ip_object) (io_ReadAll ip_object)
           (json_Unmarshal ip_object) mem_WriteFile
           with_argument no_files "output.txt" eq_refl).
Defined.

Lemma main_missing_ip_writes_nothing_witness :
  (with_argument !! 1%nat = Some "output.txt" /\
   http_Get empty_object "https://api.ipify.org?format=json"
     = (Some (mkResponse (bytes_of_string "{}")), None) /\
   io_ReadAll empty_object (bytes_of_string "{}")
     = (bytes_of_string "{}", None) /\
   json_Unmarshal empty_object (bytes_of_string "{}") None
     = (Some ∅, None) /\
   ~ has_key (Some ∅) "ip") /\
  (disk (main_on empty_object with_argument no_files)
   = (mem_WriteFile "output.txt" [] (octal [6; 4; 4]) no_files).2 /\
   ((mem_WriteFile "output.txt" [] (octal [6; 4; 4]) no_files).1 = None ->
    termination (main_on empty_object with_argument no_files) = Exited 0 /\
    logged (main_on empty_object with_argument no_files) = [])).
Proof.
  assert (Habsent : ~ has_key (Some ∅) "ip")
    by (intros [v Hv]; discriminate).
  split; [repeat split; exact Habsent|].
  exact (main_missing_ip_writes_nothing (http_Get empty_object)
           (io_ReadAll empty_object) (json_Unmarshal empty_object)
           mem_WriteFile with_argument no_files "output.txt"
           (mkResponse (bytes_of_string "{}")) (bytes_of_string "{}")
           (Some ∅) eq_refl eq_refl eq_refl eq_refl Habsent).
Defined.

Example main_empty_object :
  main_on empty_object with_argument no_files
  = mkProcess (Exited 0) [] {[ "output.txt" := ([], 420) ]}.
Proof. reflexivity. Qed.

End ProgramSpec.
